(** * Keyword acquisition: the fallback chain of [automation/trends.py]

    A shallow embedding of [TrendConfig] and [TrendClient]: the dated cache
    directory, the Google fetch with bounded retry and backoff, the Naver
    suggestion backup, the backfill from recent cache files, the default
    keyword pool, and [get_daily_keywords], which chains them.

    How the surroundings of the client are modelled:
    - the cache directory is a finite map from calendar days to files; a
      day is its proleptic Gregorian ordinal ([date.toordinal]), so the
      file name [trends_<isoformat>.json] and the day determine each other.
      Day arithmetic is on unbounded integers: the limits of [datetime]
      (years 1 to 9999) are outside the model;
    - one call reads the clock once ([now]); a call is taken not to run
      across midnight;
    - Python floats ([sleep_min], [sleep_max], the jitter) are rationals;
      only comparisons, sums and products by powers of two are used;
    - a [str] is a [string] of UTF-8 bytes; [len], [ord] and the Hangul and
      Latin tests decode it to code points, [strip] and [upper] act on the
      ASCII range;
    - the network, the pseudo-random jitter and the outcome of file writes
      are oracles collected in [Env]; [random.Random(seed).shuffle] is a
      fixed function of the seed, a variable of the sections below;
    - every function of the client is a computation in [M]: it receives
      the cache directory and yields an outcome (a value or a raised
      exception), the directory afterwards, and the events it performed in
      order. [_log] only prints and appends to a log file inside its own
      [try]; the messages that tell the tiers apart are kept as events. *)

From Stdlib Require Import ZArith QArith Qpower Qminmax List String Ascii Lia Permutation Bool.
From Stdlib Require Import DecimalString.
From stdpp Require Import base strings gmap.
Import ListNotations.

Local Open Scope string_scope.
Local Open Scope Z_scope.
Local Open Scope list_scope.

(** ** Python primitives *)

Module Py.

(** [l[:n]]: the first [n] items, or all but the last [-n] when [n < 0]. *)
Definition slice_to {A : Type} (n : Z) (l : list A) : list A :=
  if 0 <=? n then firstn (Z.to_nat n) l
  else firstn (Z.to_nat (Z.of_nat (length l) + n)) l.

(** Truth value of a list in [if items:]. *)
Definition truthy {A : Type} (l : list A) : bool :=
  match l with [] => false | _ :: _ => true end.

(** [max(a, b)] and [min(a, b)] of the builtins: the first argument is
    kept unless the second is strictly greater (smaller). *)
Definition max (a b : Q) : Q := if Qlt_le_dec a b then b else a.
Definition min (a b : Q) : Q := if Qlt_le_dec b a then b else a.

Definition byte_val (c : ascii) : Z := Z.of_N (N_of_ascii c).

(** Code points of a UTF-8 string ([pending] continuation bytes are still
    expected for the code point accumulated in [acc]). *)
Fixpoint decode (s : string) (pending : nat) (acc : Z) : list Z :=
  match s with
  | EmptyString => []
  | String c rest =>
      let b := byte_val c in
      match pending with
      | O =>
          if b <? 128 then b :: decode rest 0 0
          else if b <? 224 then decode rest 1 (b mod 32)
          else if b <? 240 then decode rest 2 (b mod 16)
          else decode rest 3 (b mod 8)
      | S O => (acc * 64 + b mod 64) :: decode rest 0 0
      | S p => decode rest p (acc * 64 + b mod 64)
      end
  end.

Definition code_points (s : string) : list Z := decode s 0 0.

(** [len(s)] *)
Definition len (s : string) : Z := Z.of_nat (length (code_points s)).

(** [sum(map(ord, s))] *)
Definition ord_sum (s : string) : Z := fold_right Z.add 0 (code_points s).

(** [s.upper()] on the ASCII range. *)
Definition upper_byte (c : ascii) : ascii :=
  let b := byte_val c in
  if (97 <=? b) && (b <=? 122) then ascii_of_N (Z.to_N (b - 32)) else c.

Fixpoint upper (s : string) : string :=
  match s with
  | EmptyString => EmptyString
  | String c rest => String (upper_byte c) (upper rest)
  end.

(** Whitespace of [str.strip()] in the ASCII range. *)
Definition is_space (c : ascii) : bool :=
  let b := byte_val c in
  ((9 <=? b) && (b <=? 13)) || ((28 <=? b) && (b <=? 32)).

Fixpoint lstrip (s : string) : string :=
  match s with
  | EmptyString => EmptyString
  | String c rest => if is_space c then lstrip rest else s
  end.

Fixpoint rstrip (s : string) : string :=
  match s with
  | EmptyString => EmptyString
  | String c rest =>
      match rstrip rest with
      | EmptyString => if is_space c then EmptyString else String c EmptyString
      | r => String c r
      end
  end.

Definition strip (s : string) : string := rstrip (lstrip s).

(** [s.split(sep)] for a one-character separator. *)
Fixpoint split (sep : ascii) (s : string) : list string :=
  match s with
  | EmptyString => [EmptyString]
  | String c rest =>
      if Ascii.eqb c sep then EmptyString :: split sep rest
      else match split sep rest with
           | [] => [String c EmptyString]
           | h :: t => String c h :: t
           end
  end.

Definition nonempty (s : string) : bool :=
  match s with EmptyString => false | String _ _ => true end.

(** [x in l] for a list of strings. *)
Definition mem (x : string) (l : list string) : bool :=
  existsb (String.eqb x) l.

(** [str(n)] of an [int]. *)
Definition str_of_int (z : Z) : string := NilZero.string_of_int (Z.to_int z).

(** Lexicographic [<=] on the triples [_score] returns. *)
Definition triple_le (a b : Z * Z * Z) : bool :=
  let '(a1, a2, a3) := a in
  let '(b1, b2, b3) := b in
  (a1 <? b1) || ((a1 =? b1) && ((a2 <? b2) || ((a2 =? b2) && (a3 <=? b3)))).

(** [sorted(l, key=key)]: stable, so an item goes after the items whose
    key is not greater. *)
Section Sorted.
Context {A : Type} (key : A -> Z * Z * Z).

Fixpoint insert_by (x : A) (l : list A) : list A :=
  match l with
  | [] => [x]
  | y :: rest =>
      if triple_le (key y) (key x) then y :: insert_by x rest
      else x :: l
  end.

Definition sorted (l : list A) : list A :=
  fold_left (fun acc x => insert_by x acc) l [].
End Sorted.

End Py.

(** ** Dates and times *)

(** A naive [datetime]: the day as an ordinal and the microseconds since
    midnight. *)
Record datetime : Type := mkDatetime { dt_ordinal : Z; dt_micros : Z }.

(** [t.date()] *)
Definition date_of (t : datetime) : Z := dt_ordinal t.

(** [t - timedelta(days=i)] *)
Definition minus_days (t : datetime) (i : Z) : datetime :=
  {| dt_ordinal := dt_ordinal t - i; dt_micros := dt_micros t |}.

Definition micros_per_day : Z := 86400000000.

(** [t2 - t1] in microseconds, and [timedelta(days=n)]. *)
Definition elapsed (t2 t1 : datetime) : Z :=
  (dt_ordinal t2 - dt_ordinal t1) * micros_per_day + (dt_micros t2 - dt_micros t1).

Definition timedelta_days (n : Z) : Z := n * micros_per_day.

(** Year, month and day of an ordinal (proleptic Gregorian calendar). *)
Definition ymd_of_ordinal (n : Z) : Z * Z * Z :=
  let z := n + 305 in
  let era := z / 146097 in
  let doe := z - era * 146097 in
  let yoe := (doe - doe / 1460 + doe / 36524 - doe / 146096) / 365 in
  let doy := doe - (365 * yoe + yoe / 4 - yoe / 100) in
  let mp := (5 * doy + 2) / 153 in
  let d := doy - (153 * mp + 2) / 5 + 1 in
  let m := if mp <? 10 then mp + 3 else mp - 9 in
  let y := yoe + era * 400 + (if m <=? 2 then 1 else 0) in
  (y, m, d).

(** [int(t.strftime("%Y%m%d"))] *)
Definition strftime_Ymd_int (t : datetime) : Z :=
  let '(y, m, d) := ymd_of_ordinal (dt_ordinal t) in
  y * 10000 + m * 100 + d.

(** ** Configuration *)

Record TrendConfig : Type := mkTrendConfig {
  cache_ttl_days : Z;
  sleep_min : Q;
  sleep_max : Q;
  batch_size : Z;
  region_default : string;
  backfill_days : Z;
  allow_defaults : bool;
  use_naver_backup : bool;
  naver_seed : string
}.

(** The defaults of the dataclass. *)
Definition default_config : TrendConfig :=
  {| cache_ttl_days := 2;
     sleep_min := 2;
     sleep_max := 5;
     batch_size := 5;
     region_default := "KR";
     backfill_days := 7;
     allow_defaults := true;
     use_naver_backup := true;
     naver_seed := "가,나,다,라,마,바,사,아,자,차,카,타,파,하,AI,뉴스,날씨,음악,게임,영화,드라마,쇼핑,핫딜" |}.

(** ** The cache directory *)

(** A value decoded by [json.load]. Floats and nested containers carry
    the text [str] gives for them. *)
Inductive jitem : Type :=
| JStr (s : string)
| JInt (z : Z)
| JBool (b : bool)
| JNull
| JOther (rendered : string).

(** [str(x)] *)
Definition py_str (x : jitem) : string :=
  match x with
  | JStr s => s
  | JInt z => Py.str_of_int z
  | JBool true => "True"
  | JBool false => "False"
  | JNull => "None"
  | JOther r => r
  end.

(** What opening and decoding a cache file gives: an exception, a JSON
    document that is not a list, or a list. *)
Inductive payload : Type :=
| Unreadable
| NotList
| JList (items : list jitem).

Record cache_file : Type := mkCacheFile { mtime : datetime; body : payload }.

Abbreviation cache_dir := (gmap Z cache_file).

(** ** Exceptions, events and the monad of the client *)

Inductive exn : Type :=
| ValueError      (* time.sleep with a negative length *)
| RuntimeError    (* "no pn candidate produced items" *)
| UpstreamError.  (* anything pytrends raises *)

Inductive log_tag : Type :=
| CACHE_HIT | NAVER_BACKUP_OK | NAVER_BACKUP_EMPTY | BACKFILL_HIT
| DEFAULTS_USED | RESULT_EMPTY | FETCH_FAIL.

Inductive event : Type :=
| CacheOpen (d : Z)                    (* _read_cache_if_fresh opens the entry of d *)
| CacheWrite (d : Z) (kws : list string)  (* _write_cache on the entry of d *)
| FetchCall                            (* _fetch_with_retry is entered *)
| TrendReqCall (attempt : Z)           (* TrendReq(...) of an attempt *)
| Query (attempt : Z) (pn : string)    (* tr.trending_searches(pn=pn) *)
| Sleep (gap : Q)                      (* time.sleep(gap) returned *)
| Suggest (q : string)                 (* one request to the suggestion API *)
| BackfillProbe (d : Z)                (* backfill looks at the entry of d *)
| Logged (tag : log_tag).

Inductive outcome (A : Type) : Type :=
| Returned (a : A)
| Raised (e : exn).
Arguments Returned {A} a.
Arguments Raised {A} e.

Record run (A : Type) : Type := mkRun {
  result : outcome A;
  store : cache_dir;
  events : list event
}.
Arguments mkRun {A}.
Arguments result {A}.
Arguments store {A}.
Arguments events {A}.

Definition M (A : Type) : Type := cache_dir -> run A.

Definition ret {A : Type} (a : A) : M A :=
  fun fs => mkRun (Returned a) fs [].

Definition raise {A : Type} (e : exn) : M A :=
  fun fs => mkRun (Raised e) fs [].

Definition bind {A B : Type} (m : M A) (k : A -> M B) : M B :=
  fun fs =>
    let r := m fs in
    match result r with
    | Returned a =>
        let r' := k a (store r) in
        mkRun (result r') (store r') (events r ++ events r')
    | Raised e => mkRun (Raised e) (store r) (events r)
    end.

(** [try: m  except Exception as e: handler e] *)
Definition catch {A : Type} (m : M A) (handler : exn -> M A) : M A :=
  fun fs =>
    let r := m fs in
    match result r with
    | Returned a => r
    | Raised e =>
        let r' := handler e (store r) in
        mkRun (result r') (store r') (events r ++ events r')
    end.

Definition emit (e : event) : M unit :=
  fun fs => mkRun (Returned tt) fs [e].

Definition get_files : M cache_dir :=
  fun fs => mkRun (Returned fs) fs [].

Definition put_files (fs' : cache_dir) : M unit :=
  fun _ => mkRun (Returned tt) fs' [].

Declare Scope client_scope.
Delimit Scope client_scope with client.
Notation "x <- m ;; k" := (bind m (fun x => k))
  (at level 100, m at next level, right associativity) : client_scope.
Notation "m ;; k" := (bind m (fun _ => k))
  (at level 100, right associativity) : client_scope.
Local Open Scope client_scope.

(** ** The world outside the client *)

(** A cell of a row of the frame [trending_searches] returns. *)
Inductive cell : Type :=
| CellStr (s : string)
| CellOther.

(** What [tr.trending_searches(pn=pn)] does. [RespBroken] is an object
    that passes the [None] and [empty] tests and raises when its rows
    are read. *)
Inductive response : Type :=
| RespRaises
| RespNone
| RespFrame (empty : bool) (rows : list cell)
| RespBroken.

(** The reply of the suggestion endpoint as [_suggest] walks it. *)
Inductive sub : Type :=
| SubSkipped                 (* not a list, or an empty list *)
| SubHead (cand : jitem).    (* a list whose first item is cand *)

Inductive block : Type :=
| BlockSkipped               (* not a list *)
| Block (subs : list sub).

(** [Reply code None]: decoding or walking the document raises;
    [Reply code (Some blocks)]: [data.get("items") or []] is [blocks]. *)
Inductive reply : Type :=
| ReplyRaises                (* requests.get raises *)
| Reply (status_code : Z) (items : option (list block)).

Inductive write_outcome : Type :=
| WriteOk
| WriteOpenFails             (* open(p, "w") raises: the entry is untouched *)
| WriteDumpFails.            (* json.dump raises: the entry is left truncated *)

Record Env : Type := mkEnv {
  now : datetime;                               (* datetime.now() *)
  pytrends_ok : bool;                           (* self._pytrends_ok *)
  trend_req : Z -> bool;                        (* TrendReq(...) of attempt k returns *)
  trending_searches : Z -> string -> response;  (* of attempt k for a candidate *)
  uniform_0_2 : Z -> Q;                         (* random.uniform(0, 2.0) after attempt k *)
  requests_ok : bool;                           (* import requests *)
  requests_get : nat -> string -> reply;        (* the i-th request, for seed q *)
  write_result : Z -> write_outcome             (* writing the entry of a day *)
}.


(** ** The client *)

(** [range(a, b)] *)
Definition py_range (a b : Z) : list Z :=
  map (fun k => a + Z.of_nat k) (seq 0 (Z.to_nat (b - a))).

Definition pn_base (r : string) : list string :=
  if String.eqb r "KR" then ["south-korea"; "south_korea"; "korea"]
  else if String.eqb r "US" then ["united-states"; "united_states"; "united states"; "usa"]
  else if String.eqb r "JP" then ["japan"]
  else if String.eqb r "GB" then ["united-kingdom"; "united_kingdom"; "united kingdom"]
  else if String.eqb r "DE" then ["germany"]
  else if String.eqb r "FR" then ["france"]
  else if String.eqb r "IN" then ["india"]
  else if String.eqb r "BR" then ["brazil"]
  else if String.eqb r "CA" then ["canada"]
  else if String.eqb r "AU" then ["australia"]
  else ["south-korea"].

(** The loop that drops repeated candidates; [seen] is the set of those
    already kept. *)
Fixpoint uniq (l : list string) (seen : gset string) : list string :=
  match l with
  | [] => []
  | x :: rest =>
      if bool_decide (x ∈ seen) then uniq rest seen
      else x :: uniq rest ({[x]} ∪ seen)
  end.

Definition _pn_candidates (region : string) : list string :=
  let r := Py.upper region in
  let candidates := pn_base r in
  let candidates :=
    if Py.mem "worldwide" candidates then candidates
    else candidates ++ ["worldwide"] in
  uniq candidates ∅.

(** [_score] of the backup: Hangul syllables first, then short, then
    few Latin letters. *)
Definition is_hangul (ch : Z) : bool := (44032 <=? ch) && (ch <=? 55203).
Definition is_latin (ch : Z) : bool :=
  ((65 <=? ch) && (ch <=? 90)) || ((97 <=? ch) && (ch <=? 122)).
Definition count_if (p : Z -> bool) (l : list Z) : Z :=
  Z.of_nat (length (filter p l)).

Definition _score (w : string) : Z * Z * Z :=
  let hangul := count_if is_hangul (Py.code_points w) in
  let latin := count_if is_latin (Py.code_points w) in
  (- hangul, Py.len w, latin).

(** The pool of [_default_keywords]. *)
Definition default_pool : list string :=
  [ "Windows 95"; "레트로"; "픽셀아트"; "디지털 아트"; "AI 이미지";
    "미니멀 디자인"; "테크 뉴스"; "개발자 팁"; "트렌드"; "인스타그램";
    "콘텐츠 제작"; "오토메이션"; "프롬프트"; "캡션"; "해시태그";
    "스타트데스크"; "fromstartdesk"; "갤러리"; "툴킷"; "워크플로우";
    "클라우드"; "파이썬"; "Next.js"; "Supabase"; "오픈소스" ].

(** [time.sleep(gap)] refuses a negative length. *)
Definition time_sleep (gap : Q) : M unit :=
  if Qlt_le_dec gap 0 then raise ValueError else emit (Sleep gap).

(** The strings of the first column, stripped. *)
Fixpoint row_strings (rows : list cell) : list string :=
  match rows with
  | [] => []
  | CellStr v :: rest => Py.strip v :: row_strings rest
  | CellOther :: rest => row_strings rest
  end.

(** The walk of [_suggest] over the decoded reply. *)
Fixpoint walk_subs (subs : list sub) : list string :=
  match subs with
  | [] => []
  | SubHead (JStr cand) :: rest =>
      if Py.nonempty (Py.strip cand) then Py.strip cand :: walk_subs rest
      else walk_subs rest
  | _ :: rest => walk_subs rest
  end.

Fixpoint walk_blocks (blocks : list block) : list string :=
  match blocks with
  | [] => []
  | BlockSkipped :: rest => walk_blocks rest
  | Block subs :: rest => walk_subs subs ++ walk_blocks rest
  end.

(** The inner loop of the backup over the suggestions of one seed. *)
Fixpoint collect_suggestions (limit : Z) (sugg : list string)
    (collected : list string) (seen : gset string) : list string * gset string :=
  match sugg with
  | [] => (collected, seen)
  | s :: rest =>
      let s2 := Py.strip s in
      if Py.len s2 <? 2 then collect_suggestions limit rest collected seen
      else if bool_decide (s2 ∈ seen) then collect_suggestions limit rest collected seen
      else
        let seen' := {[s2]} ∪ seen in
        let collected' := collected ++ [s2] in
        if Z.of_nat (length collected') >=? limit * 2 then (collected', seen')
        else collect_suggestions limit rest collected' seen'
  end.

Section Client.

(** [random.Random(seed).shuffle] as a function of the seed. *)
Variable shuffle : Z -> list string -> list string.
Variable cfg : TrendConfig.
Variable env : Env.

(** *** Cache *)

Definition _read_cache_if_fresh (d : Z) : M (option (list string) * string) :=
  fs <- get_files ;;
  match fs !! d with
  | None => ret (None, "miss: no file")
  | Some f =>
      if elapsed (now env) (mtime f) <=? timedelta_days (cache_ttl_days cfg) then
        emit (CacheOpen d) ;;
        match body f with
        | Unreadable => ret (None, "miss: error")
        | NotList => ret (None, "miss: invalid format")
        | JList data => ret (Some (map py_str data), "fresh")
        end
      else ret (None, "miss: stale")
  end.

Definition _write_cache (d : Z) (keywords : list string) : M unit :=
  emit (CacheWrite d keywords) ;;
  match write_result env d with
  | WriteOk =>
      fs <- get_files ;;
      put_files (<[d := mkCacheFile (now env) (JList (map JStr keywords))]> fs)
  | WriteOpenFails => ret tt
  | WriteDumpFails =>
      fs <- get_files ;;
      put_files (<[d := mkCacheFile (now env) Unreadable]> fs)
  end.

(** *** Google fetch with retry *)

(** The [gap] slept after a failed attempt. *)
Definition backoff_gap (attempt : Z) (jitter : Q) : Q :=
  let base_sleep := Py.max (sleep_min cfg) 1 in
  let sleep_s := (base_sleep * 2 ^ (attempt - 1))%Q in
  Py.min (Py.max (sleep_s + jitter)%Q (sleep_min cfg)) (sleep_max cfg * 4)%Q.

(** The loop over the candidates inside one attempt. An exception of
    [trending_searches] is caught and the next candidate tried; one
    raised while the rows are read leaves the loop. *)
Fixpoint sweep (attempt : Z) (cands : list string) : M (list string) :=
  match cands with
  | [] => ret []
  | pn :: rest =>
      emit (Query attempt pn) ;;
      match trending_searches env attempt pn with
      | RespRaises => sweep attempt rest
      | RespNone => sweep attempt rest
      | RespFrame true _ => sweep attempt rest
      | RespFrame false rows =>
          let local := row_strings rows in
          if Py.truthy local then ret local else sweep attempt rest
      | RespBroken => raise UpstreamError
      end
  end.

(** The body of the [try] of one attempt. *)
Definition attempt_body (limit attempt : Z) (cands : list string) : M (list string) :=
  emit (TrendReqCall attempt) ;;
  if trend_req env attempt then
    items <- sweep attempt cands ;;
    if Py.truthy items then ret (Py.slice_to limit items)
    else raise RuntimeError
  else raise UpstreamError.

(** [while attempt < 5]; [None] stands for leaving the loop, after
    which the function would return [None]. *)
Fixpoint retry_loop (limit : Z) (cands : list string) (fuel : nat) (attempt : Z)
    : M (option (list string)) :=
  match fuel with
  | O => ret None
  | S fuel' =>
      if attempt <? 5 then
        let attempt := attempt + 1 in
        catch (items <- attempt_body limit attempt cands ;; ret (Some items))
          (fun _ =>
             if attempt >=? 5 then emit (Logged FETCH_FAIL) ;; ret (Some [])
             else
               time_sleep (backoff_gap attempt (uniform_0_2 env attempt)) ;;
               retry_loop limit cands fuel' attempt)
      else ret None
  end.

Definition _fetch_with_retry (region : string) (limit : Z) : M (option (list string)) :=
  emit FetchCall ;;
  if negb (pytrends_ok env) then ret (Some [])
  else retry_loop limit (_pn_candidates region) 5 0.

(** *** Naver backup *)

Definition _suggest (i : nat) (q : string) : M (list string) :=
  emit (Suggest q) ;;
  match requests_get env i q with
  | ReplyRaises => ret []
  | Reply status_code items =>
      if negb (status_code =? 200) then ret []
      else match items with
           | None => ret []
           | Some blocks => ret (walk_blocks blocks)
           end
  end.

(** The seed terms after the shuffle seeded with today's date. *)
Definition shuffled_seeds : list string :=
  let seeds :=
    filter Py.nonempty (map Py.strip (Py.split "," (naver_seed cfg))) in
  shuffle (strftime_Ymd_int (now env)) seeds.

(** The loop over the seeds; [i] counts the requests. *)
Fixpoint collect_seeds (limit : Z) (i : nat) (seeds : list string)
    (collected : list string) (seen : gset string) : M (list string) :=
  match seeds with
  | [] => ret collected
  | seed :: rest =>
      sugg <- _suggest i seed ;;
      if negb (Py.truthy sugg) then collect_seeds limit (S i) rest collected seen
      else
        let '(collected', seen') := collect_suggestions limit sugg collected seen in
        if Z.of_nat (length collected') >=? limit * 2 then ret collected'
        else collect_seeds limit (S i) rest collected' seen'
  end.

Definition _fetch_from_naver_backup (limit : Z) : M (list string) :=
  if negb (requests_ok env) then ret []
  else
    collected <- collect_seeds limit 0 (firstn 30 shuffled_seeds) [] ∅ ;;
    let uniq_sorted := Py.sorted _score collected in
    ret (Py.slice_to limit uniq_sorted).

(** *** Backfill *)

Fixpoint backfill_loop (limit : Z) (days : list Z) : M (list string) :=
  match days with
  | [] => ret []
  | i :: rest =>
      let d := date_of (minus_days (now env) i) in
      emit (BackfillProbe d) ;;
      fs <- get_files ;;
      match fs !! d with
      | None => backfill_loop limit rest
      | Some f =>
          match body f with
          | JList (x :: data') => ret (Py.slice_to limit (map py_str (x :: data')))
          | _ => backfill_loop limit rest
          end
      end
  end.

Definition _backfill_from_recent_cache (limit : Z) : M (list string) :=
  backfill_loop limit (py_range 1 (Z.max 1 (backfill_days cfg) + 1)).

(** *** Defaults *)

Definition _default_keywords (region : string) (limit : Z) : list string :=
  let seed := Z.lxor (strftime_Ymd_int (now env)) (Py.ord_sum region) in
  let base := shuffle seed default_pool in
  Py.slice_to (Z.max 5 limit) base.

(** *** The chain *)

(** 5) defaults, and the empty result when they are disabled *)
Definition tier_defaults (target_date : Z) (region : string) (limit : Z) : M (list string) :=
  if allow_defaults cfg then
    let defaults := _default_keywords region limit in
    emit (Logged DEFAULTS_USED) ;;
    _write_cache target_date defaults ;;
    ret (Py.slice_to limit defaults)
  else
    emit (Logged RESULT_EMPTY) ;;
    _write_cache target_date [] ;;
    ret [].

(** 4) backfill *)
Definition tier_backfill (target_date : Z) (region : string) (limit : Z) : M (list string) :=
  backfilled <- _backfill_from_recent_cache limit ;;
  if Py.truthy backfilled then
    emit (Logged BACKFILL_HIT) ;;
    _write_cache target_date backfilled ;;
    ret (Py.slice_to limit backfilled)
  else tier_defaults target_date region limit.

(** 3) Naver backup *)
Definition tier_backup (target_date : Z) (region : string) (limit : Z) : M (list string) :=
  if use_naver_backup cfg then
    naver_items <- _fetch_from_naver_backup limit ;;
    if Py.truthy naver_items then
      emit (Logged NAVER_BACKUP_OK) ;;
      _write_cache target_date naver_items ;;
      ret (Py.slice_to limit naver_items)
    else
      emit (Logged NAVER_BACKUP_EMPTY) ;;
      tier_backfill target_date region limit
  else tier_backfill target_date region limit.

(** 2) Google *)
Definition tier_primary (target_date : Z) (region : string) (limit : Z) : M (list string) :=
  items <- _fetch_with_retry region limit ;;
  match items with
  | Some (x :: items') =>
      _write_cache target_date (x :: items') ;;
      ret (Py.slice_to limit (x :: items'))
  | _ => tier_backup target_date region limit
  end.

(** [region or self.cfg.region_default] *)
Definition region_or_default (region : option string) : string :=
  match region with
  | Some r => if Py.nonempty r then r else region_default cfg
  | None => region_default cfg
  end.

(** [(date or datetime.now()).date()] *)
Definition target_date (date : option datetime) : Z :=
  date_of (match date with Some t => t | None => now env end).

(** 1) cache, then the rest of the chain *)
Definition get_daily_keywords (date : option datetime) (region : option string)
    (limit : Z) : M (list string) :=
  let target_date := target_date date in
  let region := Py.upper (region_or_default region) in
  r <- _read_cache_if_fresh target_date ;;
  match fst r with
  | Some (x :: cached') =>
      emit (Logged CACHE_HIT) ;;
      ret (Py.slice_to limit (x :: cached'))
  | _ => tier_primary target_date region limit
  end.

End Client.

(** ** Observations on a run *)

(** A computation that leaves the cache directory as it found it. *)
Definition read_only {A : Type} (m : M A) : Prop :=
  forall fs, store (m fs) = fs.

(** The attempts of the Google fetch, in the order they were made. *)
Fixpoint attempts_of (evs : list event) : list Z :=
  match evs with
  | [] => []
  | TrendReqCall k :: rest => k :: attempts_of rest
  | _ :: rest => attempts_of rest
  end.

(** The candidates asked for during attempt [k], in order. *)
Fixpoint queries_of (k : Z) (evs : list event) : list string :=
  match evs with
  | [] => []
  | Query k' pn :: rest =>
      if k' =? k then pn :: queries_of k rest else queries_of k rest
  | _ :: rest => queries_of k rest
  end.

(** The lengths slept between the attempts, in order. *)
Fixpoint sleeps_of (evs : list event) : list Q :=
  match evs with
  | [] => []
  | Sleep g :: rest => g :: sleeps_of rest
  | _ :: rest => sleeps_of rest
  end.

(** [a + 1; a + 2; ...], [n] numbers. *)
Fixpoint count_up (a : Z) (n : nat) : list Z :=
  match n with
  | O => []
  | S n' => (a + 1) :: count_up (a + 1) n'
  end.

(** What attempt [k] gives; it does not depend on the cache directory
    ([attempt_body_result] below). *)
Definition attempt_result (env : Env) (limit : Z) (cands : list string) (k : Z)
    : outcome (list string) :=
  result (attempt_body env limit k cands ∅).

(** A run after the events [evs]. *)
Definition preceded_by {A : Type} (evs : list event) (r : run A) : run A :=
  mkRun (result r) (store r) (evs ++ events r).



(** The entry of a day is within the TTL at the time of the call. *)
Definition fresh (cfg : TrendConfig) (env : Env) (f : cache_file) : Prop :=
  elapsed (now env) (mtime f) <= timedelta_days (cache_ttl_days cfg).

(** The shuffle rearranges the list it is given. *)
Definition shuffle_permutes (shuffle : Z -> list string -> list string) : Prop :=
  forall seed l, Permutation l (shuffle seed l).

(** A tier that came back with nothing to return. *)
Definition nothing_cached (r : run (option (list string) * string)) : bool :=
  match result r with
  | Returned (Some (_ :: _), _) => false
  | _ => true
  end.



(** ** Sample surroundings

    Inputs on which the client is run in the examples below: a rotation
    standing for the shuffle, noon of 2026-11-04 as the clock, a network
    on which nothing answers. *)

Definition rotate_shuffle (seed : Z) (l : list string) : list string :=
  let k := Z.to_nat (seed mod Z.of_nat (length l)) in
  skipn k l ++ firstn k l.

Definition noon : datetime := mkDatetime 739924 43200000000.
Definition evening : datetime := mkDatetime 739924 79200000000.

Definition silent_env : Env :=
  {| now := noon;
     pytrends_ok := true;
     trend_req := fun _ => true;
     trending_searches := fun _ _ => RespNone;
     uniform_0_2 := fun _ => 0.5%Q;
     requests_ok := true;
     requests_get := fun _ _ => ReplyRaises;
     write_result := fun _ => WriteOk |}.

(** As [silent_env], with a frame of two terms for every candidate. *)
Definition answering_env : Env :=
  {| now := evening;
     pytrends_ok := true;
     trend_req := fun _ => true;
     trending_searches :=
       fun _ _ => RespFrame false [CellStr " x "; CellOther; CellStr "y"];
     uniform_0_2 := fun _ => 0.5%Q;
     requests_ok := true;
     requests_get := fun _ _ => ReplyRaises;
     write_result := fun _ => WriteOk |}.

(** As [silent_env], with one suggestion block for every seed. *)
Definition suggesting_env : Env :=
  {| now := noon;
     pytrends_ok := false;
     trend_req := fun _ => true;
     trending_searches := fun _ _ => RespNone;
     uniform_0_2 := fun _ => 0.5%Q;
     requests_ok := true;
     requests_get :=
       fun _ q => Reply 200 (Some [Block [SubHead (JStr (q ++ " news")%string);
                                          SubSkipped; SubHead JNull];
                                   BlockSkipped]);
     write_result := fun _ => WriteOk |}.

Definition config_with (defaults backup : bool) (window : Z) (lo hi : Q) : TrendConfig :=
  {| cache_ttl_days := 2;
     sleep_min := lo;
     sleep_max := hi;
     batch_size := 5;
     region_default := "KR";
     backfill_days := window;
     allow_defaults := defaults;
     use_naver_backup := backup;
     naver_seed := "AI, news,,weather" |}.

Definition entry (t : datetime) (kws : list string) : cache_file :=
  mkCacheFile t (JList (map JStr kws)).

(** Cache directories: an empty list for today, three terms for today,
    one term for yesterday, two terms from three days ago. *)
Definition today_empty_fs : cache_dir := {[ 739924 := entry noon [] ]}.
Definition today_abc_fs : cache_dir := {[ 739924 := entry noon ["a"; "b"; "c"] ]}.
Definition three_days_fs : cache_dir := {[ 739921 := entry noon ["old1"; "old2"] ]}.

(** ** The callers of the client *)

(** [while len(k3) < 3: k3.append("memory")] of [run_post_cycle]. *)
Fixpoint pad_memory (fuel : nat) (k3 : list string) : list string :=
  match fuel with
  | O => k3
  | S fuel' =>
      if Z.of_nat (length k3) <? 3 then pad_memory fuel' (k3 ++ ["memory"])
      else k3
  end.

Section Callers.

Variable shuffle : Z -> list string -> list string.
Variable cfg : TrendConfig.
Variable env : Env.

(** [main.py], step 1 of [run_post_cycle]: the keywords, the three of
    them used for the post, and the note on where they came from. *)
Definition run_post_cycle_keywords : M (list string * list string * string) :=
  r <- catch (kws <- get_daily_keywords shuffle cfg env None None 30 ;;
              ret (kws, "trends"))
             (fun _ => ret ([], "error")) ;;
  let '(kws, source_note) := r in
  let '(kws, source_note) :=
    if Py.truthy kws then (kws, source_note)
    else (["fashion"; "travel"; "iphone"], "fallback") in
  let k3 := Py.slice_to 3 (filter (fun x => Py.nonempty (Py.strip x)) kws) in
  ret (kws, pad_memory 3 k3, source_note).

(** [make_sample.py]:
    [get_daily_keywords(limit=30)[:3] or ['memory','light','city']]. *)
Definition make_sample_keywords : M (list string) :=
  l <- get_daily_keywords shuffle cfg env None None 30 ;;
  let kws := Py.slice_to 3 l in
  ret (if Py.truthy kws then kws else ["memory"; "light"; "city"]).

End Callers.

(** ** Further observations on a run *)

(** The cache writes, in order. *)
Fixpoint writes_of (evs : list event) : list (Z * list string) :=
  match evs with
  | [] => []
  | CacheWrite d kws :: rest => (d, kws) :: writes_of rest
  | _ :: rest => writes_of rest
  end.

(** The terms sent to the suggestion API, in order. *)
Fixpoint suggests_of (evs : list event) : list string :=
  match evs with
  | [] => []
  | Suggest q :: rest => q :: suggests_of rest
  | _ :: rest => suggests_of rest
  end.

(** The number of calls of [trending_searches]. *)
Fixpoint queries_made (evs : list event) : nat :=
  match evs with
  | [] => 0%nat
  | Query _ _ :: rest => S (queries_made rest)
  | _ :: rest => queries_made rest
  end.

(** The time slept in all. *)
Definition total_sleep (evs : list event) : Q :=
  fold_right Qplus 0%Q (sleeps_of evs).

(** A computation that changes no entry but that of day [d]. *)
Definition touches_only {A : Type} (d : Z) (m : M A) : Prop :=
  forall fs d', d' <> d -> store (m fs) !! d' = fs !! d'.

(** The order of [_score]. *)
Definition score_le (a b : string) : Prop :=
  Py.triple_le (_score a) (_score b) = true.

(** A network on which the suggestions repeat themselves and carry
    blanks and one-letter terms. *)
Definition noisy_env : Env :=
  {| now := noon;
     pytrends_ok := false;
     trend_req := fun _ => true;
     trending_searches := fun _ _ => RespNone;
     uniform_0_2 := fun _ => 0.5%Q;
     requests_ok := true;
     requests_get :=
       fun _ q => Reply 200 (Some [Block [SubHead (JStr " hot deal ");
                                          SubHead (JStr "a");
                                          SubHead (JStr (q ++ " 뉴스")%string);
                                          SubHead (JStr "hot deal")]]);
     write_result := fun _ => WriteOk |}.

(** ** The calendar on known days *)

Example ordinal_epoch : ymd_of_ordinal 719163 = (1970, 1, 1).
Proof. reflexivity. Qed.

Example ordinal_leap_day : ymd_of_ordinal 730179 = (2000, 2, 29).
Proof. reflexivity. Qed.

Example ordinal_year_end : ymd_of_ordinal 739251 = (2024, 12, 31).
Proof. reflexivity. Qed.

Example ordinal_first_day : ymd_of_ordinal 1 = (1, 1, 1).
Proof. reflexivity. Qed.

Example strftime_sample :
  strftime_Ymd_int (mkDatetime 739924 0) = 20261104.
Proof. reflexivity. Qed.

(** ** Slices *)



Lemma slice_to_length_min {A : Type} (n : Z) (l : list A) :
  0 <= n -> Z.of_nat (length (Py.slice_to n l)) = Z.min n (Z.of_nat (length l)).
Proof.
  intros Hn. unfold Py.slice_to.
  destruct (Z.leb_spec 0 n) as [_ | Hneg]; [| lia].
  rewrite length_firstn. lia.
Qed.

Lemma slice_to_nonempty {A : Type} (n : Z) (l : list A) :
  1 <= n -> l <> [] -> Py.slice_to n l <> [].
Proof.
  intros Hn Hl. unfold Py.slice_to.
  destruct (Z.leb_spec 0 n) as [_ | Hneg]; [| lia].
  destruct l as [| x l]; [congruence |].
  destruct (Z.to_nat n) eqn:E; [lia | discriminate].
Qed.

(** ** Runs of the monad *)

Lemma bind_returned {A B : Type} (m : M A) (k : A -> M B) fs a :
  result (m fs) = Returned a ->
  bind m k fs =
    mkRun (result (k a (store (m fs)))) (store (k a (store (m fs))))
          (events (m fs) ++ events (k a (store (m fs)))).
Proof. intros H. unfold bind. now rewrite H. Qed.

Lemma bind_raised {A B : Type} (m : M A) (k : A -> M B) fs e :
  result (m fs) = Raised e ->
  bind m k fs = mkRun (Raised e) (store (m fs)) (events (m fs)).
Proof. intros H. unfold bind. now rewrite H. Qed.

Lemma bind_result_inv {A B : Type} (m : M A) (k : A -> M B) fs b :
  result (bind m k fs) = Returned b ->
  exists a, result (m fs) = Returned a /\ result (k a (store (m fs))) = Returned b.
Proof.
  unfold bind. destruct (result (m fs)) as [a | e] eqn:E; simpl; intros H.
  - now exists a.
  - discriminate.
Qed.

(** ** The events of the Google fetch *)

Lemma attempts_of_app evs1 evs2 :
  attempts_of (evs1 ++ evs2) = attempts_of evs1 ++ attempts_of evs2.
Proof.
  induction evs1 as [| e evs1 IH]; [reflexivity |].
  destruct e; cbn; now rewrite ?IH.
Qed.

Lemma queries_of_app k evs1 evs2 :
  queries_of k (evs1 ++ evs2) = queries_of k evs1 ++ queries_of k evs2.
Proof.
  induction evs1 as [| e evs1 IH]; [reflexivity |].
  destruct e; cbn; rewrite ?IH; try reflexivity.
  now destruct (attempt =? k).
Qed.

Lemma emit_bind {B : Type} (e : event) (k : M B) fs :
  (emit e ;; k) fs = mkRun (result (k fs)) (store (k fs)) (e :: events (k fs)).
Proof. reflexivity. Qed.

Lemma catch_returned {A : Type} (m : M A) (h : exn -> M A) fs a :
  result (m fs) = Returned a -> catch m h fs = m fs.
Proof. intros H. unfold catch. now rewrite H. Qed.

Lemma catch_raised {A : Type} (m : M A) (h : exn -> M A) fs e :
  result (m fs) = Raised e ->
  catch m h fs =
    mkRun (result (h e (store (m fs)))) (store (h e (store (m fs))))
          (events (m fs) ++ events (h e (store (m fs)))).
Proof. intros H. unfold catch. now rewrite H. Qed.

Lemma run_eta {A : Type} (r : run A) :
  r = mkRun (result r) (store r) (events r).
Proof. now destruct r. Qed.

Section FetchFacts.
Variable cfg : TrendConfig.
Variable env : Env.
Variable limit : Z.
Variable cands : list string.

Lemma sweep_store k cs : read_only (sweep env k cs).
Proof.
  induction cs as [| pn rest IH]; intros fs; [reflexivity |].
  cbn [sweep]. rewrite emit_bind. cbn [store].
  destruct (trending_searches env k pn) as [| | [|] rows |]; try apply IH.
  - destruct (Py.truthy (row_strings rows)); [reflexivity | apply IH].
  - reflexivity.
Qed.

Lemma sweep_result k cs fs :
  result (sweep env k cs fs) = result (sweep env k cs ∅).
Proof.
  induction cs as [| pn rest IH]; [reflexivity |].
  cbn [sweep]. rewrite !emit_bind. cbn [result].
  destruct (trending_searches env k pn) as [| | [|] rows |]; try apply IH.
  - destruct (Py.truthy (row_strings rows)); [reflexivity | apply IH].
  - reflexivity.
Qed.

Lemma sweep_events k cs fs :
  exists qs, qs `prefix_of` cs /\ events (sweep env k cs fs) = map (Query k) qs.
Proof.
  induction cs as [| pn rest (qs & Hpre & Hev)].
  - now exists [].
  - cbn [sweep]. rewrite emit_bind. cbn [events].
    assert (Hnext : exists qs0, qs0 `prefix_of` pn :: rest /\
              Query k pn :: events (sweep env k rest fs) = map (Query k) qs0).
    { exists (pn :: qs). split; [now apply prefix_cons | now rewrite Hev]. }
    assert (Hstop : exists qs0, qs0 `prefix_of` pn :: rest /\
              [Query k pn] = map (Query k) qs0).
    { exists [pn]. split; [apply prefix_cons, prefix_nil | reflexivity]. }
    destruct (trending_searches env k pn) as [| | [|] rows |]; try exact Hnext.
    + destruct (Py.truthy (row_strings rows)); [exact Hstop | exact Hnext].
    + exact Hstop.
Qed.

(** What an attempt gives does not depend on the cache directory. *)
Lemma attempt_body_result k fs :
  result (attempt_body env limit k cands fs) = attempt_result env limit cands k.
Proof.
  unfold attempt_result, attempt_body. rewrite !emit_bind. cbn [result].
  destruct (trend_req env k); [| reflexivity].
  unfold bind. rewrite (sweep_result k cands fs), (sweep_store k cands fs).
  rewrite (sweep_store k cands ∅).
  destruct (result (sweep env k cands ∅)) as [items | e]; [| reflexivity].
  now destruct (Py.truthy items).
Qed.

Lemma attempt_body_store k : read_only (attempt_body env limit k cands).
Proof.
  intros fs. unfold attempt_body. rewrite emit_bind. cbn [store].
  destruct (trend_req env k); [| reflexivity].
  unfold bind. rewrite (sweep_store k cands fs).
  destruct (result (sweep env k cands fs)) as [items | e]; [| reflexivity].
  now destruct (Py.truthy items).
Qed.

Lemma attempt_body_events k fs :
  exists qs, qs `prefix_of` cands /\
    events (attempt_body env limit k cands fs) = TrendReqCall k :: map (Query k) qs.
Proof.
  unfold attempt_body. rewrite emit_bind. cbn [events].
  destruct (trend_req env k).
  - destruct (sweep_events k cands fs) as (qs & Hpre & Hev).
    exists qs. split; [assumption |]. f_equal.
    unfold bind. rewrite <- Hev.
    destruct (result (sweep env k cands fs)) as [items | e]; [| reflexivity].
    cbn [events]. destruct (Py.truthy items); cbn [events raise ret]; apply app_nil_r.
  - exists []. split; [apply prefix_nil | reflexivity].
Qed.

(** One round of the [while] loop. *)
Lemma retry_loop_step fuel a fs :
  a < 5 ->
  retry_loop cfg env limit cands (S fuel) a fs =
    let ev := events (attempt_body env limit (a + 1) cands fs) in
    match attempt_result env limit cands (a + 1) with
    | Returned items => mkRun (Returned (Some items)) fs ev
    | Raised _ =>
        if a + 1 >=? 5 then mkRun (Returned (Some [])) fs (ev ++ [Logged FETCH_FAIL])
        else
          let gap := backoff_gap cfg (a + 1) (uniform_0_2 env (a + 1)) in
          if Qlt_le_dec gap 0 then mkRun (Raised ValueError) fs ev
          else
            let r := retry_loop cfg env limit cands fuel (a + 1) fs in
            mkRun (result r) (store r) (ev ++ Sleep gap :: events r)
    end.
Proof.
  intros Ha. cbn [retry_loop]. destruct (Z.ltb_spec a 5) as [_ | ?]; [| lia].
  set (body := bind (attempt_body env limit (a + 1) cands) (fun items => ret (Some items))).
  pose proof (attempt_body_result (a + 1) fs) as Hres.
  pose proof (attempt_body_store (a + 1) fs) as Hst.
  cbv zeta. destruct (attempt_result env limit cands (a + 1)) as [items | e].
  - rewrite (catch_returned body _ fs (Some items)).
    + unfold body. rewrite (bind_returned _ _ fs items Hres), Hst. cbn.
      now rewrite app_nil_r.
    + unfold body. now rewrite (bind_returned _ _ fs items Hres).
  - assert (Hbody : body fs = mkRun (Raised e) fs (events (attempt_body env limit (a + 1) cands fs))).
    { unfold body. now rewrite (bind_raised _ _ fs e Hres), Hst. }
    rewrite (catch_raised body _ fs e) by now rewrite Hbody.
    rewrite Hbody. cbn [store events].
    destruct (a + 1 >=? 5); [reflexivity |].
    unfold time_sleep.
    destruct (Qlt_le_dec (backoff_gap cfg (a + 1) (uniform_0_2 env (a + 1))) 0).
    + cbn. now rewrite app_nil_r.
    + rewrite emit_bind. reflexivity.
Qed.



(** With the five rounds the guard admits the loop is never left: the
    function returns a list, or the sleep refuses its argument. *)
Lemma retry_loop_result fuel a fs :
  a < 5 -> 5 - a <= Z.of_nat fuel ->
  (exists l, result (retry_loop cfg env limit cands fuel a fs) = Returned (Some l)) \/
  result (retry_loop cfg env limit cands fuel a fs) = Raised ValueError.
Proof.
  revert a. induction fuel as [| fuel IH]; intros a Ha Hfuel; [lia |].
  rewrite retry_loop_step by assumption. cbv zeta.
  destruct (attempt_result env limit cands (a + 1)) as [items | e]; [left; now exists items |].
  destruct (Z.geb_spec (a + 1) 5) as [Hlast | Hmore]; [left; now exists [] |].
  destruct (Qlt_le_dec _ 0); [now right |].
  cbn [result]. apply IH; lia.
Qed.

Lemma attempts_of_attempt k fs :
  attempts_of (events (attempt_body env limit k cands fs)) = [k].
Proof.
  destruct (attempt_body_events k fs) as (qs & _ & ->).
  cbn. f_equal. now induction qs.
Qed.

Lemma retry_loop_attempts fuel a fs :
  exists n : nat,
    attempts_of (events (retry_loop cfg env limit cands fuel a fs)) = count_up a n /\
    (n = 0%nat \/ a + Z.of_nat n <= 5).
Proof.
  revert a. induction fuel as [| fuel IH]; intros a.
  { exists 0%nat. split; [reflexivity | now left]. }
  destruct (Z.lt_ge_cases a 5) as [Ha | Ha].
  - rewrite retry_loop_step by assumption. cbv zeta.
    assert (Hone : exists n : nat,
              attempts_of (events (attempt_body env limit (a + 1) cands fs)) = count_up a n /\
              (n = 0%nat \/ a + Z.of_nat n <= 5)).
    { exists 1%nat. split; [apply attempts_of_attempt | right; lia]. }
    destruct (attempt_result env limit cands (a + 1)); [exact Hone |].
    destruct (Z.geb_spec (a + 1) 5) as [Hlast | Hmore].
    { cbn [events]. rewrite attempts_of_app. cbn.
      rewrite app_nil_r. exact Hone. }
    destruct (Qlt_le_dec _ 0); [exact Hone |].
    cbn [events]. destruct (IH (a + 1)) as (n & Hn & Hle).
    exists (S n). split.
    + rewrite attempts_of_app, attempts_of_attempt. cbn. now rewrite Hn.
    + right. destruct Hle as [-> | Hle]; lia.
  - exists 0%nat. split; [| now left].
    cbn [retry_loop]. destruct (Z.ltb_spec a 5); [lia | reflexivity].
Qed.

Lemma queries_of_attempt k k' fs :
  exists qs, qs `prefix_of` cands /\
    queries_of k (events (attempt_body env limit k' cands fs)) =
      if k' =? k then qs else [].
Proof.
  destruct (attempt_body_events k' fs) as (qs & Hpre & ->).
  exists qs. split; [assumption |].
  cbn. clear Hpre.
  induction qs as [| q qs IH]; cbn.
  - now destruct (k' =? k).
  - rewrite IH. now destruct (k' =? k).
Qed.

Lemma retry_loop_queries fuel a fs k :
  queries_of k (events (retry_loop cfg env limit cands fuel a fs)) `prefix_of` cands /\
  (k <= a -> queries_of k (events (retry_loop cfg env limit cands fuel a fs)) = []).
Proof.
  revert a. induction fuel as [| fuel IH]; intros a.
  { split; [apply prefix_nil | reflexivity]. }
  destruct (Z.lt_ge_cases a 5) as [Ha | Ha].
  - rewrite retry_loop_step by assumption. cbv zeta.
    destruct (queries_of_attempt k (a + 1) fs) as (qs & Hpre & Hq).
    assert (Hone : queries_of k (events (attempt_body env limit (a + 1) cands fs))
                     `prefix_of` cands /\
                   (k <= a -> queries_of k (events (attempt_body env limit (a + 1) cands fs)) = [])).
    { rewrite Hq. destruct (Z.eqb_spec (a + 1) k); split;
        first [assumption | apply prefix_nil | intros; lia | reflexivity]. }
    destruct (attempt_result env limit cands (a + 1)); [exact Hone |].
    destruct (Z.geb_spec (a + 1) 5) as [Hlast | Hmore].
    { cbn [events]. rewrite queries_of_app. cbn.
      rewrite app_nil_r. exact Hone. }
    destruct (Qlt_le_dec _ 0); [exact Hone |].
    cbn [events]. rewrite queries_of_app. cbn [queries_of].
    destruct (IH (a + 1)) as [IHpre IHnil]. rewrite Hq.
    destruct (Z.eqb_spec (a + 1) k) as [Hk | Hk].
    + rewrite IHnil by lia. rewrite app_nil_r. split; [assumption | intros; lia].
    + split; [exact IHpre | intros; apply IHnil; lia].
  - cbn [retry_loop]. destruct (Z.ltb_spec a 5); [lia |].
    split; [apply prefix_nil | reflexivity].
Qed.

Lemma count_up_length a n : length (count_up a n) = n.
Proof. revert a. induction n as [| n IH]; intros a; cbn; [| rewrite IH]; reflexivity. Qed.

Lemma retry_loop_exhausted fuel a fs e :
  a < 5 ->
  attempts_of (events (retry_loop cfg env limit cands fuel a fs)) =
    count_up a (Z.to_nat (5 - a)) ->
  attempt_result env limit cands 5 = Raised e ->
  result (retry_loop cfg env limit cands fuel a fs) = Returned (Some []).
Proof.
  revert a. induction fuel as [| fuel IH]; intros a Ha Hatt Hfail.
  { cbn in Hatt. apply (f_equal (@length Z)) in Hatt.
    rewrite count_up_length in Hatt. cbn in Hatt. lia. }
  rewrite retry_loop_step in Hatt |- * by assumption. cbv zeta in Hatt |- *.
  assert (Hshort : attempts_of (events (attempt_body env limit (a + 1) cands fs)) =
                     count_up a (Z.to_nat (5 - a)) -> a + 1 = 5).
  { rewrite attempts_of_attempt. intros H. apply (f_equal (@length Z)) in H.
    rewrite count_up_length in H. cbn in H. lia. }
  destruct (attempt_result env limit cands (a + 1)) as [items | e'] eqn:Hres.
  - cbn [events] in Hatt. apply Hshort in Hatt. rewrite Hatt in Hres. congruence.
  - destruct (Z.geb_spec (a + 1) 5) as [Hlast | Hmore]; [reflexivity |].
    destruct (Qlt_le_dec _ 0).
    + cbn [events] in Hatt. apply Hshort in Hatt. lia.
    + cbn [events result] in Hatt |- *. apply IH; [lia | | assumption].
      rewrite attempts_of_app, attempts_of_attempt in Hatt. cbn [attempts_of] in Hatt.
      replace (Z.to_nat (5 - a)) with (S (Z.to_nat (5 - (a + 1)))) in Hatt by lia.
      cbn [count_up app] in Hatt. now injection Hatt.
Qed.

End FetchFacts.

Section Backoff.
Variable cfg : TrendConfig.








End Backoff.

(** ** The chain returns slices *)

Section ChainFacts.
Variable shuffle : Z -> list string -> list string.
Variable cfg : TrendConfig.
Variable env : Env.

Lemma write_cache_result d kws fs :
  result (_write_cache env d kws fs) = Returned tt.
Proof.
  unfold _write_cache, bind, emit. simpl.
  destruct (write_result env d); reflexivity.
Qed.

Lemma write_cache_events d kws fs :
  events (_write_cache env d kws fs) = [CacheWrite d kws].
Proof.
  unfold _write_cache, bind, emit. simpl.
  destruct (write_result env d); reflexivity.
Qed.







End ChainFacts.

Lemma ret_bind_get {B : Type} (k : cache_dir -> M B) fs :
  bind get_files k fs = mkRun (result (k fs fs)) (store (k fs fs)) (events (k fs fs)).
Proof. reflexivity. Qed.

(** ** The tiers one by one *)

Section TierFacts.
Variable shuffle : Z -> list string -> list string.
Variable cfg : TrendConfig.
Variable env : Env.

(** *** Cache read *)

Lemma read_cache_store d : read_only (_read_cache_if_fresh cfg env d).
Proof.
  intros fs. unfold _read_cache_if_fresh. rewrite ret_bind_get. cbn [store].
  destruct (fs !! d) as [f |]; [| reflexivity].
  destruct (_ <=? _); [| reflexivity].
  rewrite emit_bind. cbn [store]. now destruct (body f).
Qed.

Lemma read_cache_returns d fs :
  exists r, result (_read_cache_if_fresh cfg env d fs) = Returned r.
Proof.
  unfold _read_cache_if_fresh. rewrite ret_bind_get. cbn [result].
  destruct (fs !! d) as [f |]; [| now eexists].
  destruct (_ <=? _); [| now eexists].
  rewrite emit_bind. cbn [result]. destruct (body f); now eexists.
Qed.

Lemma read_cache_fresh d fs f :
  fs !! d = Some f -> fresh cfg env f ->
  _read_cache_if_fresh cfg env d fs =
    mkRun (Returned match body f with
                    | Unreadable => (None, "miss: error")
                    | NotList => (None, "miss: invalid format")
                    | JList data => (Some (map py_str data), "fresh")
                    end) fs [CacheOpen d].
Proof.
  intros Hf Hfresh. unfold _read_cache_if_fresh. rewrite ret_bind_get, Hf.
  unfold fresh in Hfresh.
  destruct (Z.leb_spec (elapsed (now env) (mtime f)) (timedelta_days (cache_ttl_days cfg)));
    [| lia].
  rewrite emit_bind. now destruct (body f).
Qed.

(** *** Cache write *)

Lemma write_cache_ok d kws fs :
  write_result env d = WriteOk ->
  store (_write_cache env d kws fs) = <[d := entry (now env) kws]> fs.
Proof. intros H. unfold _write_cache. rewrite emit_bind, H. reflexivity. Qed.

(** *** Google fetch *)


Lemma fetch_with_retry_events region limit fs :
  exists evs, events (_fetch_with_retry cfg env region limit fs) = FetchCall :: evs.
Proof. unfold _fetch_with_retry. rewrite emit_bind. now eexists. Qed.



(** *** Naver backup *)




(** *** Backfill *)







End TierFacts.




(** ** Falling through the chain *)

Section ChainSteps.
Variable shuffle : Z -> list string -> list string.
Variable cfg : TrendConfig.
Variable env : Env.

Lemma tier_defaults_on d region limit fs :
  allow_defaults cfg = true ->
  tier_defaults shuffle cfg env d region limit fs =
    mkRun (Returned (Py.slice_to limit (_default_keywords shuffle env region limit)))
          (store (_write_cache env d (_default_keywords shuffle env region limit) fs))
          [Logged DEFAULTS_USED; CacheWrite d (_default_keywords shuffle env region limit)].
Proof.
  intros Hon. unfold tier_defaults. rewrite Hon, emit_bind.
  rewrite (bind_returned _ _ fs tt) by apply write_cache_result.
  now rewrite write_cache_events.
Qed.

Lemma tier_defaults_off d region limit fs :
  allow_defaults cfg = false ->
  tier_defaults shuffle cfg env d region limit fs =
    mkRun (Returned []) (store (_write_cache env d [] fs))
          [Logged RESULT_EMPTY; CacheWrite d []].
Proof.
  intros Hoff. unfold tier_defaults. rewrite Hoff, emit_bind.
  rewrite (bind_returned _ _ fs tt) by apply write_cache_result.
  now rewrite write_cache_events.
Qed.







Lemma get_daily_keywords_through date region limit fs :
  nothing_cached (_read_cache_if_fresh cfg env (target_date env date) fs) = true ->
  get_daily_keywords shuffle cfg env date region limit fs =
    preceded_by (events (_read_cache_if_fresh cfg env (target_date env date) fs))
      (tier_primary shuffle cfg env (target_date env date)
         (Py.upper (region_or_default cfg region)) limit fs).
Proof.
  unfold nothing_cached, get_daily_keywords. intros H.
  set (d := target_date env date) in *.
  destruct (result (_read_cache_if_fresh cfg env d fs)) as [[[[| x l] |] why] | e] eqn:Hres;
    try discriminate;
    try (now rewrite (bind_returned _ _ fs _ Hres), read_cache_store).
  destruct (read_cache_returns cfg env d fs) as [r Hr]. congruence.
Qed.

(** *** The chain returns when the sleep is accepted *)






End ChainSteps.

(** ** The sleeps between the attempts *)

Section SleepFacts.
Variable cfg : TrendConfig.
Variable env : Env.
Variable limit : Z.
Variable cands : list string.




End SleepFacts.

(** ** The defaults *)

Lemma rotate_shuffle_permutes : shuffle_permutes rotate_shuffle.
Proof.
  intros seed l. unfold rotate_shuffle.
  set (k := Z.to_nat (seed mod Z.of_nat (length l))).
  rewrite <- (firstn_skipn k l) at 1. apply Permutation_app_comm.
Qed.

Section DefaultFacts.
Variable shuffle : Z -> list string -> list string.
Variable env : Env.
Hypothesis Hshuffle : shuffle_permutes shuffle.

Lemma shuffle_length seed l : length (shuffle seed l) = length l.
Proof. symmetry. apply Permutation_length, Hshuffle. Qed.

Lemma default_keywords_length region limit :
  Z.of_nat (length (_default_keywords shuffle env region limit)) = Z.min 25 (Z.max 5 limit).
Proof.
  unfold _default_keywords. rewrite slice_to_length_min by lia.
  rewrite shuffle_length. cbn. lia.
Qed.

Lemma default_keywords_nonempty region limit :
  _default_keywords shuffle env region limit <> [].
Proof.
  intros H. pose proof (default_keywords_length region limit) as Hlen.
  rewrite H in Hlen. cbn in Hlen. lia.
Qed.

End DefaultFacts.

(** ** With defaults enabled the chain returns something *)

Section NonEmpty.
Variable shuffle : Z -> list string -> list string.
Variable cfg : TrendConfig.
Variable env : Env.
Variable limit : Z.
Hypothesis Hshuffle : shuffle_permutes shuffle.
Hypothesis Hdefaults : allow_defaults cfg = true.
Hypothesis Hlimit : 1 <= limit.

Lemma truthy_nonempty {A : Type} (l : list A) : Py.truthy l = true -> l <> [].
Proof. now destruct l. Qed.

Lemma tier_defaults_nonempty d region fs l :
  result (tier_defaults shuffle cfg env d region limit fs) = Returned l -> l <> [].
Proof.
  rewrite tier_defaults_on by assumption. cbn [result]. intros [= <-].
  apply slice_to_nonempty; [assumption | now apply default_keywords_nonempty].
Qed.

Lemma tier_backfill_nonempty d region fs l :
  result (tier_backfill shuffle cfg env d region limit fs) = Returned l -> l <> [].
Proof.
  unfold tier_backfill. intros H.
  apply bind_result_inv in H as (b & _ & H).
  destruct (Py.truthy b) eqn:Hb.
  - apply bind_result_inv in H as (_ & _ & H).
    apply bind_result_inv in H as (_ & _ & H).
    injection H as <-. apply slice_to_nonempty; [assumption | now apply truthy_nonempty].
  - eapply tier_defaults_nonempty, H.
Qed.

Lemma tier_backup_nonempty d region fs l :
  result (tier_backup shuffle cfg env d region limit fs) = Returned l -> l <> [].
Proof.
  unfold tier_backup. destruct (use_naver_backup cfg); [| apply tier_backfill_nonempty].
  intros H. apply bind_result_inv in H as (b & _ & H).
  destruct (Py.truthy b) eqn:Hb.
  - apply bind_result_inv in H as (_ & _ & H).
    apply bind_result_inv in H as (_ & _ & H).
    injection H as <-. apply slice_to_nonempty; [assumption | now apply truthy_nonempty].
  - apply bind_result_inv in H as (_ & _ & H).
    eapply tier_backfill_nonempty, H.
Qed.

Lemma tier_primary_nonempty d region fs l :
  result (tier_primary shuffle cfg env d region limit fs) = Returned l -> l <> [].
Proof.
  unfold tier_primary. intros H.
  apply bind_result_inv in H as (items & _ & H).
  destruct items as [[| x items] |]; try (eapply tier_backup_nonempty, H).
  apply bind_result_inv in H as (_ & _ & H).
  injection H as <-. now apply slice_to_nonempty.
Qed.

End NonEmpty.

(** ** An attempt that finds nothing asks for every candidate *)

Section SweepFacts.
Variable cfg : TrendConfig.
Variable env : Env.
Variable limit : Z.
Variable cands : list string.

Lemma sweep_empty_asks_all k cs fs :
  result (sweep env k cs fs) = Returned [] ->
  events (sweep env k cs fs) = map (Query k) cs.
Proof.
  induction cs as [| pn rest IH]; [reflexivity |].
  cbn [sweep]. rewrite emit_bind. cbn [result events map].
  destruct (trending_searches env k pn) as [| | [|] rows |];
    try (intros H; f_equal; now apply IH).
  - destruct (row_strings rows) as [| s local] eqn:Hrows; cbn [Py.truthy].
    + intros H. f_equal. now apply IH.
    + discriminate.
  - discriminate.
Qed.

Lemma queries_of_map_query k cs : queries_of k (map (Query k) cs) = cs.
Proof.
  induction cs as [| pn rest IH]; [reflexivity |].
  cbn. rewrite Z.eqb_refl. now f_equal.
Qed.

Lemma attempt_without_items_asks_all k fs :
  attempt_result env limit cands k = Raised RuntimeError ->
  queries_of k (events (attempt_body env limit k cands fs)) = cands.
Proof.
  rewrite <- (attempt_body_result env limit cands k fs).
  unfold attempt_body. rewrite !emit_bind. cbn [result events queries_of].
  destruct (trend_req env k); [| discriminate].
  unfold bind. destruct (result (sweep env k cands fs)) as [items | e] eqn:Hsweep.
  - destruct items as [| x items]; cbn [Py.truthy result events]; [| discriminate].
    intros _. rewrite app_nil_r, (sweep_empty_asks_all k cands fs Hsweep).
    apply queries_of_map_query.
  - cbn [result]. intros H. injection H as ->.
    exfalso. clear -Hsweep. revert Hsweep.
    induction cands as [| pn rest IH]; [discriminate |].
    cbn [sweep]. rewrite emit_bind. cbn [result].
    destruct (trending_searches env k pn) as [| | [|] rows |]; try exact IH.
    + destruct (Py.truthy (row_strings rows)); [discriminate | exact IH].
    + discriminate.
Qed.

Lemma retry_loop_queries_of_attempt fuel a fs k :
  In k (attempts_of (events (retry_loop cfg env limit cands fuel a fs))) ->
  queries_of k (events (retry_loop cfg env limit cands fuel a fs)) =
    queries_of k (events (attempt_body env limit k cands fs)).
Proof.
  revert a. induction fuel as [| fuel IH]; intros a; [intros [] |].
  destruct (Z.lt_ge_cases a 5) as [Ha | Ha].
  - rewrite retry_loop_step by assumption. cbv zeta.
    assert (Hone : In k (attempts_of (events (attempt_body env limit (a + 1) cands fs))) ->
                   k = a + 1).
    { rewrite attempts_of_attempt. intros [H | []]. now symmetry. }
    destruct (attempt_result env limit cands (a + 1)).
    { cbn [events]. intros Hin. now rewrite (Hone Hin). }
    destruct (Z.geb_spec (a + 1) 5) as [Hlast | Hmore].
    { cbn [events]. rewrite attempts_of_app, queries_of_app. cbn. rewrite !app_nil_r.
      intros Hin. now rewrite (Hone Hin). }
    destruct (Qlt_le_dec _ 0).
    { cbn [events]. intros Hin. now rewrite (Hone Hin). }
    cbn [events]. rewrite attempts_of_app, queries_of_app, attempts_of_attempt.
    cbn [attempts_of queries_of app].
    destruct (Z.eq_dec k (a + 1)) as [-> | Hk].
    + intros _.
      rewrite (proj2 (retry_loop_queries cfg env limit cands fuel (a + 1) fs (a + 1))) by lia.
      apply app_nil_r.
    + intros [Hin | Hin]; [congruence |].
      destruct (queries_of_attempt env limit cands k (a + 1) fs) as (qs & _ & ->).
      destruct (Z.eqb_spec (a + 1) k); [congruence |]. cbn [app].
      now apply IH.
  - cbn [retry_loop]. destruct (Z.ltb_spec a 5); [lia | intros []].
Qed.

End SweepFacts.

(** ** The chain on the sample surroundings *)

(** A fresh entry of three terms and a limit of five: the entry is
    returned whole and nothing is written. *)
Example cache_hit_run :
  get_daily_keywords rotate_shuffle default_config silent_env None None 5 today_abc_fs =
    mkRun (Returned ["a"; "b"; "c"]) today_abc_fs [CacheOpen 739924; Logged CACHE_HIT].
Proof. vm_compute. reflexivity. Qed.

(** No entry, and Google answers the first attempt. *)
Example primary_run :
  result (get_daily_keywords rotate_shuffle default_config answering_env None None 5 ∅) =
    Returned ["x"; "y"] /\
  store (get_daily_keywords rotate_shuffle default_config answering_env None None 5 ∅)
    !! 739924 = Some (entry evening ["x"; "y"]) /\
  events (get_daily_keywords rotate_shuffle default_config answering_env None None 5 ∅) =
    [FetchCall; TrendReqCall 1; Query 1 "south-korea"; CacheWrite 739924 ["x"; "y"]].
Proof. repeat split; vm_compute; reflexivity. Qed.

(** Google is not installed and the suggestions answer. *)
Example backup_run :
  result (get_daily_keywords rotate_shuffle default_config suggesting_env None None 3 ∅) =
    Returned ["뉴스 news"; "날씨 news"; "음악 news"].
Proof. vm_compute. reflexivity. Qed.

(** Nothing answers, the backup is disabled, and an entry from three
    days ago holds two terms. *)
Example backfill_run :
  result (get_daily_keywords rotate_shuffle (config_with true false 7 2 5) silent_env
            None None 10 three_days_fs) = Returned ["old1"; "old2"] /\
  store (get_daily_keywords rotate_shuffle (config_with true false 7 2 5) silent_env
           None None 10 three_days_fs) !! 739924 = Some (entry noon ["old1"; "old2"]).
Proof. split; vm_compute; reflexivity. Qed.

(** Nothing answers and there is no history: the defaults. With a limit
    of 30 the whole pool of 25 comes back. *)
Example defaults_run :
  Z.of_nat (length (_default_keywords rotate_shuffle silent_env "KR" 30)) = 25 /\
  result (get_daily_keywords rotate_shuffle (config_with true false 7 2 5) silent_env
            None (Some "KR") 30 ∅) =
    Returned (_default_keywords rotate_shuffle silent_env "KR" 30).
Proof. split; vm_compute; reflexivity. Qed.

(** Backup and defaults disabled: the empty list, written to the cache. *)
Example exhausted_run :
  result (get_daily_keywords rotate_shuffle (config_with false false 7 2 5) silent_env
            None None 5 ∅) = Returned [] /\
  store (get_daily_keywords rotate_shuffle (config_with false false 7 2 5) silent_env
           None None 5 ∅) = today_empty_fs.
Proof. split; vm_compute; reflexivity. Qed.

(** The entry the empty result leaves behind. *)
Lemma exhausted_tier_writes_empty_entry
    (shuffle : Z -> list string -> list string) (cfg : TrendConfig) (env : Env)
    (d : Z) (region : string) (limit : Z) (fs : cache_dir) :
  allow_defaults cfg = false ->
  write_result env d = WriteOk ->
  store (tier_defaults shuffle cfg env d region limit fs) !! d =
    Some (mkCacheFile (now env) (JList [])).
Proof.
  intros Hoff Hwrite. rewrite tier_defaults_off by assumption. cbn [store].
  rewrite write_cache_ok by assumption. apply lookup_insert_eq.
Qed.

(** A call that ends with the empty result at noon, then a call in the
    evening of the same day on a network that answers: the empty entry
    is fresh, and the second call still asks Google. *)
Example exhausted_then_retried :
  result (get_daily_keywords rotate_shuffle default_config answering_env None None 5
            (store (get_daily_keywords rotate_shuffle (config_with false false 7 2 5)
                      silent_env None None 5 ∅))) = Returned ["x"; "y"] /\
  events (get_daily_keywords rotate_shuffle default_config answering_env None None 5
            (store (get_daily_keywords rotate_shuffle (config_with false false 7 2 5)
                      silent_env None None 5 ∅))) =
    [CacheOpen 739924; FetchCall; TrendReqCall 1; Query 1 "south-korea";
     CacheWrite 739924 ["x"; "y"]].
Proof. split; vm_compute; reflexivity. Qed.

(** * The claims *)

(** ** C1: the length invariant *)



(** ** C2: no exception leaves the entry point *)

(** C2 (the code raises). With [sleep_max = -1] and a first attempt that
    finds nothing, the gap computed after the attempt is [-4], the sleep
    refuses it, and the [ValueError] leaves [get_daily_keywords]. *)
Theorem get_daily_keywords_raises_on_negative_sleep_max :
  result (get_daily_keywords rotate_shuffle (config_with true true 7 2 (-1)) silent_env
            None None 3 ∅) = Raised ValueError /\
  backoff_gap (config_with true true 7 2 (-1)) 1 (uniform_0_2 silent_env 1) = (-4)%Q.
Proof. split; vm_compute; reflexivity. Qed.

(** ** C3: when the result is empty *)

(** The claim as first stated fails: with the backup enabled and the
    defaults disabled nothing answers and the result is empty; and with
    the defaults enabled a limit of 0 gives the empty list. *)
Lemma empty_result_with_backup_enabled :
  use_naver_backup (config_with false true 7 2 5) = true /\
  result (get_daily_keywords rotate_shuffle (config_with false true 7 2 5) silent_env
            None None 3 ∅) = Returned [] /\
  allow_defaults (config_with true false 7 2 5) = true /\
  result (get_daily_keywords rotate_shuffle (config_with true false 7 2 5) silent_env
            None None 0 ∅) = Returned [].
Proof. repeat split; vm_compute; reflexivity. Qed.

(** C3, amended. With [allow_defaults] enabled and a limit of at least
    one, a list returned by [get_daily_keywords] is never empty; the
    empty list is returned only with the defaults disabled or a limit
    below one. *)
Theorem get_daily_keywords_nonempty_with_defaults
    (shuffle : Z -> list string -> list string) (cfg : TrendConfig) (env : Env)
    (date : option datetime) (region : option string) (limit : Z)
    (fs : cache_dir) (l : list string) :
  shuffle_permutes shuffle ->
  allow_defaults cfg = true ->
  1 <= limit ->
  result (get_daily_keywords shuffle cfg env date region limit fs) = Returned l ->
  l <> [].
Proof.
  intros Hshuffle Hdefaults Hlimit H. unfold get_daily_keywords in H.
  apply bind_result_inv in H as ([cached why] & _ & H). cbn [fst] in H.
  destruct cached as [[| x cached] |];
    try (eapply tier_primary_nonempty; eassumption).
  apply bind_result_inv in H as (_ & _ & H).
  injection H as <-. now apply slice_to_nonempty.
Qed.

(** The theorem on the run that ends in the defaults with a limit of 3. *)
Lemma get_daily_keywords_nonempty_with_defaults_witness :
  shuffle_permutes rotate_shuffle /\
  allow_defaults default_config = true /\
  1 <= 3 /\
  result (get_daily_keywords rotate_shuffle default_config silent_env None None 3 ∅) =
    Returned ["Supabase"; "오픈소스"; "Windows 95"] /\
  ["Supabase"; "오픈소스"; "Windows 95"] <> [].
Proof.
  assert (Hrun : result (get_daily_keywords rotate_shuffle default_config silent_env
                           None None 3 ∅) =
                 Returned ["Supabase"; "오픈소스"; "Windows 95"])
    by (vm_compute; reflexivity).
  split; [exact rotate_shuffle_permutes |]. split; [reflexivity |].
  split; [lia |]. split; [exact Hrun |].
  apply (get_daily_keywords_nonempty_with_defaults rotate_shuffle default_config
           silent_env None None 3 ∅);
    [exact rotate_shuffle_permutes | reflexivity | lia | exact Hrun].
Defined.

(** ** C4: a fresh cache entry ends the call *)




(** ** C5: at most five attempts *)

(** C5. The Google fetch makes at most five attempts, numbered 1 to 5 in
    order; within an attempt the candidates are asked for in the order
    of [_pn_candidates], and an attempt in which no candidate produced
    items has asked for all of them; when the fifth attempt has been
    made and has failed the fetch returns the empty list. No exception
    of an attempt leaves the fetch: it returns a list, or the sleep
    between two attempts refuses its argument. *)
Theorem fetch_with_retry_at_most_five_attempts
    (cfg : TrendConfig) (env : Env) (region : string) (limit : Z) (fs : cache_dir) :
  attempts_of (events (_fetch_with_retry cfg env region limit fs))
    `prefix_of` [1; 2; 3; 4; 5] /\
  (length (attempts_of (events (_fetch_with_retry cfg env region limit fs))) <= 5)%nat /\
  (forall k,
     queries_of k (events (_fetch_with_retry cfg env region limit fs))
       `prefix_of` _pn_candidates region) /\
  (forall k,
     In k (attempts_of (events (_fetch_with_retry cfg env region limit fs))) ->
     attempt_result env limit (_pn_candidates region) k = Raised RuntimeError ->
     queries_of k (events (_fetch_with_retry cfg env region limit fs)) =
       _pn_candidates region) /\
  (attempts_of (events (_fetch_with_retry cfg env region limit fs)) = [1; 2; 3; 4; 5] ->
   (exists e, attempt_result env limit (_pn_candidates region) 5 = Raised e) ->
   result (_fetch_with_retry cfg env region limit fs) = Returned (Some [])) /\
  ((exists l, result (_fetch_with_retry cfg env region limit fs) = Returned (Some l)) \/
   result (_fetch_with_retry cfg env region limit fs) = Raised ValueError).
Proof.
  unfold _fetch_with_retry. rewrite emit_bind. cbn [result events attempts_of queries_of].
  destruct (negb (pytrends_ok env)).
  { cbn. split; [apply prefix_nil |]. split; [lia |].
    split; [intros k; apply prefix_nil |]. split; [intros k [] |].
    split; [discriminate |]. left. now exists []. }
  set (cands := _pn_candidates region).
  destruct (retry_loop_attempts cfg env limit cands 5 0 fs) as (n & Hn & Hle).
  assert (Hn5 : (n <= 5)%nat) by (destruct Hle as [-> | Hle]; lia).
  assert (Hpre : count_up 0 n `prefix_of` [1; 2; 3; 4; 5]).
  { do 6 (destruct n as [| n]; [cbn; eexists; reflexivity |]). lia. }
  split; [now rewrite Hn |]. split; [now rewrite Hn, count_up_length |].
  split; [intros k; apply retry_loop_queries |].
  split; [| split].
  - intros k Hmade Hnothing.
    rewrite (retry_loop_queries_of_attempt cfg env limit cands 5 0 fs k Hmade).
    now apply attempt_without_items_asks_all.
  - intros Hall (e & Hfail).
    apply (retry_loop_exhausted cfg env limit cands 5 0 fs e); [lia | | exact Hfail].
    exact Hall.
  - apply retry_loop_result; cbn; lia.
Qed.

(** The theorem on a network where nothing answers: five attempts, the
    fifth fails, the empty list. *)
Lemma fetch_with_retry_at_most_five_attempts_witness :
  attempts_of (events (_fetch_with_retry default_config silent_env "KR" 3 ∅)) =
    [1; 2; 3; 4; 5] /\
  attempt_result silent_env 3 (_pn_candidates "KR") 5 = Raised RuntimeError /\
  result (_fetch_with_retry default_config silent_env "KR" 3 ∅) = Returned (Some []).
Proof.
  assert (Hall : attempts_of (events (_fetch_with_retry default_config silent_env "KR" 3 ∅)) =
                 [1; 2; 3; 4; 5]) by (vm_compute; reflexivity).
  assert (Hfail : attempt_result silent_env 3 (_pn_candidates "KR") 5 = Raised RuntimeError)
    by (vm_compute; reflexivity).
  split; [exact Hall |]. split; [exact Hfail |].
  destruct (fetch_with_retry_at_most_five_attempts default_config silent_env "KR" 3 ∅)
    as (_ & _ & _ & _ & Hgiven & _).
  apply Hgiven; [exact Hall | now exists RuntimeError].
Defined.

(** ** C6: the window of the backfill *)




(** ** C7: the defaults *)




(** ** C8: determinism *)

(** C8. On the same calendar date, whatever the time of day, the network
    and the rest of the surroundings, the default generator returns the
    same list for the same region and limit, and the backup shuffles its
    seed terms into the same order. The seed of the first shuffle is the
    date as the integer YYYYMMDD xor the sum of the character codes of
    the region; that of the second is the date as that integer. *)
Theorem defaults_and_seed_shuffle_depend_on_date
    (shuffle : Z -> list string -> list string) (cfg : TrendConfig) (env1 env2 : Env)
    (region : string) (limit : Z) :
  date_of (now env1) = date_of (now env2) ->
  _default_keywords shuffle env1 region limit = _default_keywords shuffle env2 region limit /\
  shuffled_seeds shuffle cfg env1 = shuffled_seeds shuffle cfg env2 /\
  _default_keywords shuffle env1 region limit =
    Py.slice_to (Z.max 5 limit)
      (shuffle (Z.lxor (strftime_Ymd_int (now env1)) (Py.ord_sum region)) default_pool) /\
  shuffled_seeds shuffle cfg env1 =
    shuffle (strftime_Ymd_int (now env1))
      (filter Py.nonempty (map Py.strip (Py.split "," (naver_seed cfg)))).
Proof.
  intros Hdate.
  assert (Hseed : strftime_Ymd_int (now env1) = strftime_Ymd_int (now env2)).
  { unfold strftime_Ymd_int. unfold date_of in Hdate. now rewrite Hdate. }
  unfold _default_keywords, shuffled_seeds. rewrite Hseed. repeat split.
Qed.

(** The theorem at noon and in the evening of the same day. *)
Lemma defaults_and_seed_shuffle_depend_on_date_witness :
  now silent_env <> now answering_env /\
  date_of (now silent_env) = date_of (now answering_env) /\
  _default_keywords rotate_shuffle silent_env "KR" 3 =
    _default_keywords rotate_shuffle answering_env "KR" 3 /\
  shuffled_seeds rotate_shuffle default_config silent_env =
    shuffled_seeds rotate_shuffle default_config answering_env.
Proof.
  split; [discriminate |]. split; [reflexivity |].
  destruct (defaults_and_seed_shuffle_depend_on_date rotate_shuffle default_config
              silent_env answering_env "KR" 3 eq_refl) as (Hdefaults & Hseeds & _).
  split; [exact Hdefaults | exact Hseeds].
Defined.

(** ** C9: the backoff *)




(** ** C10: a fresh entry that is empty *)

(** C10. When the entry of the target date is fresh and holds the empty
    list, [get_daily_keywords] does not return it: after opening the
    entry it goes on exactly as the chain from the Google tier does, so
    the Google fetch is entered. *)
Theorem fresh_empty_entry_falls_through
    (shuffle : Z -> list string -> list string) (cfg : TrendConfig) (env : Env)
    (date : option datetime) (region : option string) (limit : Z)
    (fs : cache_dir) (f : cache_file) :
  fs !! target_date env date = Some f ->
  fresh cfg env f ->
  body f = JList [] ->
  get_daily_keywords shuffle cfg env date region limit fs =
    preceded_by [CacheOpen (target_date env date)]
      (tier_primary shuffle cfg env (target_date env date)
         (Py.upper (region_or_default cfg region)) limit fs) /\
  exists evs,
    events (get_daily_keywords shuffle cfg env date region limit fs) =
      CacheOpen (target_date env date) :: FetchCall :: evs.
Proof.
  intros Hf Hfresh Hbody.
  pose proof (read_cache_fresh cfg env _ fs f Hf Hfresh) as Hread.
  rewrite Hbody in Hread. cbn [map] in Hread.
  assert (Hrun : get_daily_keywords shuffle cfg env date region limit fs =
            preceded_by [CacheOpen (target_date env date)]
              (tier_primary shuffle cfg env (target_date env date)
                 (Py.upper (region_or_default cfg region)) limit fs)).
  { rewrite get_daily_keywords_through; now rewrite Hread. }
  split; [exact Hrun |].
  rewrite Hrun. unfold preceded_by, tier_primary. cbn [events app].
  destruct (fetch_with_retry_events cfg env (Py.upper (region_or_default cfg region)) limit fs)
    as (evs & Hev).
  unfold bind.
  destruct (result (_fetch_with_retry cfg env _ limit fs)); cbn [events]; rewrite Hev;
    cbn [app]; now eexists.
Qed.

(** The theorem on a fresh entry that holds the empty list. *)
Lemma fresh_empty_entry_falls_through_witness :
  today_empty_fs !! target_date silent_env None = Some (entry noon []) /\
  fresh default_config silent_env (entry noon []) /\
  get_daily_keywords rotate_shuffle default_config silent_env None None 3 today_empty_fs =
    preceded_by [CacheOpen 739924]
      (tier_primary rotate_shuffle default_config silent_env 739924 "KR" 3 today_empty_fs).
Proof.
  assert (Hf : today_empty_fs !! target_date silent_env None = Some (entry noon []))
    by reflexivity.
  assert (Hfresh : fresh default_config silent_env (entry noon []))
    by (vm_compute; intros H; discriminate H).
  split; [exact Hf |]. split; [exact Hfresh |].
  destruct (fresh_empty_entry_falls_through rotate_shuffle default_config silent_env
              None None 3 today_empty_fs (entry noon []) Hf Hfresh eq_refl) as (Hrun & _).
  exact Hrun.
Defined.
